(** * Video Subtitler backend: a shallow embedding of [main.py]

    The development follows the source file top-down: the Python
    builtins the handlers rely on ([Py]), the subtitle formatter
    ([_generate_demo_srt] and its inner [ts]), the style encoder
    ([hex_to_ass]) and the three endpoints with the external tools
    ([ffmpeg], [ffprobe]) as oracles.

    Modelling conventions.
    - A Python [float] is an exact rational ([Q]): the arithmetic of
      the handlers ([//], [%], [int], [min], [max], [*], [-]) is
      written out on rationals, without binary64 rounding.  Concrete
      evaluations below use values with a finite binary expansion.
    - A Python [int] is [Z].
    - A Python [str] made of code points below 256 is a [string];
      decoded text, whose code points are arbitrary, is a list of code
      points ([list N]).
    - Exceptions are values of [exn]; a computation that can raise
      returns an [outcome]; handlers that touch the file system thread
      a [world]. *)

From Stdlib Require Import ZArith Zdiv QArith Qround Lia Lqa Ascii String List.
From Stdlib Require Import DecimalString HexadecimalString.
From Stdlib Require Decimal Hexadecimal DecimalN HexadecimalN.
From stdpp Require Import base option strings gmap.
Import ListNotations.

Local Open Scope string_scope.

(** ** Python builtins *)

Module Py.

(** Exceptions that the modelled code can raise. *)
Inductive exn : Type :=
| HTTPException (status_code : Z) (detail : string)
| ValueError
| CalledProcessError (returncode : Z)
| FileNotFoundError
| UnicodeDecodeError
| UnicodeEncodeError
| RuntimeError.

Inductive outcome (A : Type) : Type :=
| Ok (a : A)
| Raise (e : exn).
Arguments Ok {A} a.
Arguments Raise {A} e.

Definition obind {A B} (c : outcome A) (k : A -> outcome B) : outcome B :=
  match c with
  | Ok a => k a
  | Raise e => Raise e
  end.

(** *** Floats as rationals *)

Definition Qltb (a b : Q) : bool := negb (Qle_bool b a).

(** [min(a, b)] and [max(a, b)] keep the first argument unless the
    second is strictly better. *)
Definition min (a b : Q) : Q := if Qltb b a then b else a.
Definition max (a b : Q) : Q := if Qltb a b then b else a.

(** [int(x)] on a float truncates toward zero. *)
Definition int (x : Q) : Z := Z.quot (Qnum x) (Zpos (Qden x)).

(** [a // b] and [a % b] on floats, for a non-zero divisor (the source
    only divides by the literals 3600 and 60). *)
Definition floordiv (a b : Q) : Q := inject_Z (Qfloor (a / b)).
Definition mod_ (a b : Q) : Q := a - b * inject_Z (Qfloor (a / b)).

(** A falsy float is zero. *)
Definition truthy (x : Q) : bool := negb (Qeq_bool x 0).

(** *** Formatting integers *)

Fixpoint zeros (n : nat) : string :=
  match n with
  | O => ""
  | S k => String "0" (zeros k)
  end.

Definition dec_digits (n : N) : string :=
  DecimalString.NilEmpty.string_of_uint (N.to_uint n).

Fixpoint upper_hex_of_uint (d : Hexadecimal.uint) : string :=
  match d with
  | Hexadecimal.Nil => ""
  | Hexadecimal.D0 d => String "0" (upper_hex_of_uint d)
  | Hexadecimal.D1 d => String "1" (upper_hex_of_uint d)
  | Hexadecimal.D2 d => String "2" (upper_hex_of_uint d)
  | Hexadecimal.D3 d => String "3" (upper_hex_of_uint d)
  | Hexadecimal.D4 d => String "4" (upper_hex_of_uint d)
  | Hexadecimal.D5 d => String "5" (upper_hex_of_uint d)
  | Hexadecimal.D6 d => String "6" (upper_hex_of_uint d)
  | Hexadecimal.D7 d => String "7" (upper_hex_of_uint d)
  | Hexadecimal.D8 d => String "8" (upper_hex_of_uint d)
  | Hexadecimal.D9 d => String "9" (upper_hex_of_uint d)
  | Hexadecimal.Da d => String "A" (upper_hex_of_uint d)
  | Hexadecimal.Db d => String "B" (upper_hex_of_uint d)
  | Hexadecimal.Dc d => String "C" (upper_hex_of_uint d)
  | Hexadecimal.Dd d => String "D" (upper_hex_of_uint d)
  | Hexadecimal.De d => String "E" (upper_hex_of_uint d)
  | Hexadecimal.Df d => String "F" (upper_hex_of_uint d)
  end.

Definition hex_digits (n : N) : string :=
  upper_hex_of_uint (N.to_hex_uint n).

(** The format specs [0w] and [0wX] of an f-string: the digits of the
    absolute value, zero-filled after the sign up to a minimal width
    [w]; longer numbers are not cut. *)
Definition format_zero (digits : N -> string) (width : nat) (z : Z) : string :=
  let sign := if (z <? 0)%Z then "-" else "" in
  let body := digits (Z.abs_N z) in
  sign ++ zeros (width - String.length sign - String.length body) ++ body.

Definition format_0d (width : nat) (z : Z) : string :=
  format_zero dec_digits width z.
Definition format_0X (width : nat) (z : Z) : string :=
  format_zero hex_digits width z.

(** [str(i)] of an int. *)
Definition str (z : Z) : string := format_0d 0 z.

(** [sep.join(lines)]. *)
Fixpoint join (sep : string) (lines : list string) : string :=
  match lines with
  | [] => ""
  | [l] => l
  | l :: rest => l ++ sep ++ join sep rest
  end.

End Py.

(** ** Subtitle formatter *)

Module Srt.

Definition newline : string := String (ascii_of_nat 10) "".

(** The inner function [ts] of [_generate_demo_srt]. *)
Definition ts (t : Q) : string :=
  let h := Py.int (Py.floordiv t 3600) in
  let m := Py.int (Py.floordiv (Py.mod_ t 3600) 60) in
  let s := Py.int (Py.mod_ t 60) in
  let ms := Py.int ((t - inject_Z (Py.int t)) * 1000) in
  Py.format_0d 2 h ++ ":" ++ Py.format_0d 2 m ++ ":" ++ Py.format_0d 2 s
    ++ "," ++ Py.format_0d 3 ms.

(** The [segments] list built at the top of [_generate_demo_srt]. *)
Definition segments (duration : Q) : list (Q * Q * string) :=
  [ (0%Q, Py.min 3 duration, "Namaste! Yeh demo transcription hai.");
    (3%Q, Py.min 6 duration, "Aap yahan subtitles edit kar sakte ho.");
    (6%Q, duration, "Jab ready ho, burn-in karke download kar lo.") ].

(** The rebinding [if end <= start: end = start + 1] of the loop body. *)
Definition fix_end (start end_ : Q) : Q :=
  if Qle_bool end_ start then start + 1 else end_.

(** The cues the loop emits: the segments after [fix_end]. *)
Definition cues (duration : Q) : list (Q * Q * string) :=
  map (fun '(start, end_, text) => (start, fix_end start end_, text))
      (segments duration).

(** The four lines appended for the [i]-th segment. *)
Definition cue_lines (i : Z) (seg : Q * Q * string) : list string :=
  let '(start, end_, text) := seg in
  let end_ := fix_end start end_ in
  [ Py.str i; ts start ++ " --> " ++ ts end_; text; "" ].

Fixpoint loop (i : Z) (segs : list (Q * Q * string)) : list string :=
  match segs with
  | [] => []
  | seg :: rest => (cue_lines i seg ++ loop (i + 1) rest)%list
  end.

Definition _generate_demo_srt (duration : Q) : string :=
  Py.join newline (loop 1 (segments duration)).

End Srt.

(** ** Style encoder *)

Module Style.

(** *** [int(s, 16)] on a [str] *)

(** Characters [int] skips around the literal: the ASCII white space
    and, of the code points 128..255, NEL and the no-break space. *)
Definition is_space (c : ascii) : bool :=
  let n := nat_of_ascii c in
  (Nat.leb 9 n && Nat.leb n 13) || Nat.eqb n 32 || Nat.eqb n 133 || Nat.eqb n 160.

(** Value of a character as a base-16 digit. *)
Definition digit16 (c : ascii) : option Z :=
  let n := nat_of_ascii c in
  if Nat.leb 48 n && Nat.leb n 57 then Some (Z.of_nat (n - 48))
  else if Nat.leb 65 n && Nat.leb n 70 then Some (Z.of_nat (n - 55))
  else if Nat.leb 97 n && Nat.leb n 102 then Some (Z.of_nat (n - 87))
  else None.

Fixpoint skip_spaces (s : string) : string :=
  match s with
  | String c rest => if is_space c then skip_spaces rest else s
  | EmptyString => s
  end.

(** The digit loop: digits and single underscores, starting after an
    optional sign and prefix.  [prev_us] tells whether the previous
    character was an underscore, [n] counts the digits read, [acc] is
    their value.  After the last digit only white space may follow. *)
Fixpoint scan16 (prev_us : bool) (n : nat) (acc : Z) (s : string) : option Z :=
  match s with
  | EmptyString => if prev_us || Nat.eqb n 0 then None else Some acc
  | String c rest =>
      match digit16 c with
      | Some d => scan16 false (S n) (16 * acc + d) rest
      | None =>
          if Ascii.eqb c "_" then
            if prev_us then None else scan16 true n acc rest
          else if prev_us || Nat.eqb n 0 then None
          else match skip_spaces s with
               | EmptyString => Some acc
               | String _ _ => None
               end
      end
  end.

Definition int16 (s : string) : Py.outcome Z :=
  let s := skip_spaces s in
  let '(sign, s) :=
    match s with
    | String "+" rest => (1%Z, rest)
    | String "-" rest => ((-1)%Z, rest)
    | _ => (1%Z, s)
    end in
  let s :=
    match s with
    | String "0" (String "x" rest) | String "0" (String "X" rest) =>
        match rest with
        | String "_" rest' => rest'
        | _ => rest
        end
    | _ => s
    end in
  match s with
  | String "_" _ => Py.Raise Py.ValueError
  | _ => match scan16 false 0 0 s with
         | Some v => Py.Ok (sign * v)%Z
         | None => Py.Raise Py.ValueError
         end
  end.

(** *** The colour encoding of [burn_subtitles] *)

(** [hex_color.lstrip('#')] *)
Fixpoint lstrip_hash (s : string) : string :=
  match s with
  | String "#" rest => lstrip_hash rest
  | _ => s
  end.

(** [aa = int(max(0, min(1, alpha)) * 255)] *)
Definition alpha_byte (alpha : Q) : Z :=
  Py.int (Py.max 0 (Py.min 1 alpha) * 255).

Definition hex_to_ass (hex_color : string) (alpha : Q) : Py.outcome string :=
  let hex_color := lstrip_hash hex_color in
  let hex_color :=
    if Nat.eqb (String.length hex_color) 6 then hex_color else "FFFFFF" in
  Py.obind (int16 (substring 0 2 hex_color)) (fun r =>
  Py.obind (int16 (substring 2 2 hex_color)) (fun g =>
  Py.obind (int16 (substring 4 2 hex_color)) (fun b =>
  let aa := alpha_byte alpha in
  Py.Ok ("&H" ++ Py.format_0X 2 aa ++ Py.format_0X 2 b
              ++ Py.format_0X 2 g ++ Py.format_0X 2 r)))).

(** [primary] and [back] as computed in the handler. *)
Definition primary (color : string) : Py.outcome string :=
  hex_to_ass color 0.

Definition back_alpha (bg_opacity : Q) : Q :=
  1 - Py.max 0 (Py.min 1 bg_opacity).

Definition back (bg_opacity : Q) : Py.outcome string :=
  hex_to_ass "000000" (back_alpha bg_opacity).

(** ASS alignment codes. *)
Definition alignment_map : gmap string Z :=
  <["bottom" := 2%Z]> (<["top" := 8%Z]> (<["left" := 4%Z]>
  (<["right" := 6%Z]> (<["center" := 5%Z]> ∅)))).

Definition align (position : string) : Z :=
  default 2%Z (alignment_map !! position).

Definition force_style (position color : string) (font_size : Z)
    (bg_opacity : Q) : Py.outcome string :=
  Py.obind (primary color) (fun primary =>
  Py.obind (back bg_opacity) (fun back =>
  Py.Ok ("Alignment=" ++ Py.str (align position)
         ++ ",Fontsize=" ++ Py.str font_size
         ++ ",PrimaryColour=" ++ primary
         ++ ",BackColour=" ++ back
         ++ ",Outline=1,BorderStyle=3"))).

End Style.

(** ** The process environment: temporary files and external tools *)

Module Sys.

Abbreviation bytes := (list Byte.byte).

(** A temporary file is named by the number [mkstemp] drew for it and
    the suffix it was asked for. *)
Record path : Type := Path { tmp_id : nat; tmp_suffix : string }.

Definition path_name (p : path) : string :=
  "/tmp/tmp" ++ Py.str (Z.of_nat (tmp_id p)) ++ tmp_suffix p.

Record world : Type := World {
  files : gmap nat bytes;
  next_tmp : nat
}.

(** Computations that read and write the world and may raise. *)
Definition M (A : Type) : Type := world -> Py.outcome A * world.

Definition ret {A} (a : A) : M A := fun w => (Py.Ok a, w).
Definition raise {A} (e : Py.exn) : M A := fun w => (Py.Raise e, w).
Definition bind {A B} (c : M A) (k : A -> M B) : M B :=
  fun w =>
    match c w with
    | (Py.Ok a, w') => k a w'
    | (Py.Raise e, w') => (Py.Raise e, w')
    end.
Definition lift {A} (c : Py.outcome A) : M A := fun w => (c, w).

(** [try: body except Exception: handler]; the effects of [body] up to
    the point where it raised stay. *)
Definition try_except {A} (body : M A) (handler : Py.exn -> M A) : M A :=
  fun w =>
    match body w with
    | (Py.Ok a, w') => (Py.Ok a, w')
    | (Py.Raise e, w') => handler e w'
    end.

#[export] Instance M_ret : MRet M := @ret.
#[export] Instance M_bind : MBind M := fun A B k c => bind c k.

(** [tempfile.mkstemp(suffix=...)] creates a new empty file. *)
Definition mkstemp (suffix : string) : M path :=
  fun w =>
    let n := next_tmp w in
    (Py.Ok (Path n suffix), World (<[n := []]> (files w)) (S n)).

(** [open(p, "wb")] followed by writing [data]. *)
Definition write_file (p : path) (data : bytes) : M unit :=
  fun w => (Py.Ok tt, World (<[tmp_id p := data]> (files w)) (next_tmp w)).

(** [shutil.copy(src, dst)] *)
Definition shutil_copy (src dst : path) : M unit :=
  fun w =>
    match files w !! tmp_id src with
    | Some data =>
        (Py.Ok tt, World (<[tmp_id dst := data]> (files w)) (next_tmp w))
    | None => (Py.Raise Py.FileNotFoundError, w)
    end.

(** [os.remove(p)] *)
Definition os_remove (p : path) : M unit :=
  fun w =>
    match files w !! tmp_id p with
    | Some _ => (Py.Ok tt, World (delete (tmp_id p) (files w)) (next_tmp w))
    | None => (Py.Raise Py.FileNotFoundError, w)
    end.

(** What [subprocess.run] observes of a child process: it could not be
    started (the exception says why), or it exited. *)
Inductive completed : Type :=
| NotStarted (e : Py.exn)
| Exited (returncode : Z) (stdout : string).

(** [subprocess.run(..., check=True)] on an observed process. *)
Definition check_true (c : completed) : Py.outcome string :=
  match c with
  | NotStarted e => Py.Raise e
  | Exited rc out =>
      if (rc =? 0)%Z then Py.Ok out else Py.Raise (Py.CalledProcessError rc)
  end.

(** The external tools.  [ffmpeg_render] receives the argument vector
    and the files it can read, and tells what it left in its output
    file; it writes nowhere else. *)
Record tools : Type := Tools {
  ffmpeg_version : completed;
  ffmpeg_render : list string -> gmap nat bytes -> completed * bytes;
  ffprobe : list string -> gmap nat bytes -> completed
}.

(** [str.encode("utf-8")] on code points below 256. *)
Definition utf8_of_ascii (c : ascii) : bytes :=
  let n := N_of_ascii c in
  if (n <? 128)%N then [byte_of_ascii c]
  else [ byte_of_ascii (ascii_of_N (192 + n / 64));
         byte_of_ascii (ascii_of_N (128 + n mod 64)) ].

Fixpoint encode_utf8 (s : string) : bytes :=
  match s with
  | EmptyString => []
  | String c rest => (utf8_of_ascii c ++ encode_utf8 rest)%list
  end.

(** [s.rfind(c)] as an option. *)
Fixpoint rfind (c : ascii) (s : string) : option nat :=
  match s with
  | EmptyString => None
  | String a rest =>
      match rfind c rest with
      | Some i => Some (S i)
      | None => if Ascii.eqb a c then Some 0%nat else None
      end
  end.

(** Is there a character other than [.] in [s[i:j]]? *)
Definition has_non_dot (s : string) (i j : nat) : bool :=
  negb (forallb (Ascii.eqb ".") (list_ascii_of_string (substring i (j - i) s))).

(** [os.path.splitext(p)[1]] *)
Definition splitext_ext (p : string) : string :=
  match rfind "." p with
  | None => ""
  | Some dot =>
      let filename_index :=
        match rfind "/" p with Some sep => S sep | None => 0%nat end in
      if Nat.ltb filename_index (S dot) && has_non_dot p filename_index dot
      then substring dot (String.length p - dot) p
      else ""
  end.

Record UploadFile : Type := Upload {
  filename : option string;
  content : bytes
}.

(** [not file.filename] *)
Definition no_filename (file : UploadFile) : bool :=
  match filename file with
  | None | Some EmptyString => true
  | Some (String _ _) => false
  end.

Definition _save_upload_to_temp (upload : UploadFile) : M path :=
  let name := default "" (filename upload) in
  let ext := splitext_ext name in
  let suffix := match ext with EmptyString => ".bin" | _ => ext end in
  tmp_path ← mkstemp suffix;
  write_file tmp_path (content upload);;
  mret tmp_path.

End Sys.

(** ** UTF-8 decoding of uploaded bytes *)

Module Utf8.

(** The [errors] argument of [bytes.decode]. *)
Inductive errors : Type := Strict | Ignore | Replace.

Abbreviation text := (list N).

Definition is_cont (b : N) : bool := (128 <=? b)%N && (b <? 192)%N.

(** What the decoder does with an ill-formed range once it has been
    delimited; [k] decodes what follows the range. *)
Definition on_error (h : errors) (k : Py.outcome text) : Py.outcome text :=
  match h with
  | Strict => Py.Raise Py.UnicodeDecodeError
  | Ignore => k
  | Replace => Py.obind k (fun t => Py.Ok (65533%N :: t))
  end.

Definition emit (cp : N) (k : Py.outcome text) : Py.outcome text :=
  Py.obind k (fun t => Py.Ok (cp :: t)).

(** The decoding loop on byte values.  An invalid start byte is an
    error range of one byte; an invalid continuation ends the range
    just before the offending byte, which is then decoded afresh; a
    sequence cut by the end of the data is one range up to the end. *)
Fixpoint decode_loop (h : errors) (bs : list N) : Py.outcome text :=
  match bs with
  | [] => Py.Ok []
  | b0 :: r0 =>
      if (b0 <? 128)%N then emit b0 (decode_loop h r0)
      else if (b0 <? 194)%N then on_error h (decode_loop h r0)
      else if (b0 <? 224)%N then
        match r0 with
        | [] => on_error h (Py.Ok [])
        | b1 :: r1 =>
            if is_cont b1
            then emit ((b0 - 192) * 64 + (b1 - 128))%N (decode_loop h r1)
            else on_error h (decode_loop h r0)
        end
      else if (b0 <? 240)%N then
        match r0 with
        | [] => on_error h (Py.Ok [])
        | b1 :: r1 =>
            if negb (is_cont b1)
               || ((b0 =? 224)%N && (b1 <? 160)%N)
               || ((b0 =? 237)%N && (160 <=? b1)%N)
            then on_error h (decode_loop h r0)
            else
              match r1 with
              | [] => on_error h (Py.Ok [])
              | b2 :: r2 =>
                  if is_cont b2
                  then emit ((b0 - 224) * 4096 + (b1 - 128) * 64 + (b2 - 128))%N
                            (decode_loop h r2)
                  else on_error h (decode_loop h r1)
              end
        end
      else if (b0 <? 245)%N then
        match r0 with
        | [] => on_error h (Py.Ok [])
        | b1 :: r1 =>
            if negb (is_cont b1)
               || ((b0 =? 240)%N && (b1 <? 144)%N)
               || ((b0 =? 244)%N && (144 <=? b1)%N)
            then on_error h (decode_loop h r0)
            else
              match r1 with
              | [] => on_error h (Py.Ok [])
              | b2 :: r2 =>
                  if negb (is_cont b2) then on_error h (decode_loop h r1)
                  else
                    match r2 with
                    | [] => on_error h (Py.Ok [])
                    | b3 :: r3 =>
                        if is_cont b3
                        then emit ((b0 - 240) * 262144 + (b1 - 128) * 4096
                                   + (b2 - 128) * 64 + (b3 - 128))%N
                                  (decode_loop h r3)
                        else on_error h (decode_loop h r2)
                    end
              end
        end
      else on_error h (decode_loop h r0)
  end.

(** [data.decode("utf-8", errors=h)] *)
Definition decode (h : errors) (data : Sys.bytes) : Py.outcome text :=
  decode_loop h (map Byte.to_N data).

End Utf8.

(** ** The endpoints *)

Module Api.

Import Sys.

Record FileResponse : Type := Response {
  resp_path : path;
  media_type : string;
  resp_filename : string
}.

(** The bytes a [FileResponse] serves, read from its path when the
    response is sent. *)
Definition response_body (w : world) (r : FileResponse) : option bytes :=
  files w !! tmp_id (resp_path r).

Definition no_file_provided : Py.exn :=
  Py.HTTPException 400 "No file provided".

Definition _ffmpeg_available (t : tools) : bool :=
  match check_true (ffmpeg_version t) with
  | Py.Ok _ => true
  | Py.Raise _ => false
  end.

(** The argument vector of the render call. *)
Definition render_cmd (video_path srt_path out_path : path)
    (force_style : string) : list string :=
  [ "ffmpeg"; "-y"; "-i"; path_name video_path; "-vf";
    "subtitles=" ++ path_name srt_path ++ ":force_style='" ++ force_style ++ "'";
    "-c:a"; "copy"; path_name out_path ].

(** [subprocess.run(cmd, check=True)] for the render: whatever the
    process left in the output file is there afterwards, also when the
    call raises. *)
Definition run_render (t : tools) (cmd : list string) (out_path : path) : M unit :=
  fun w =>
    let '(c, produced) := ffmpeg_render t cmd (files w) in
    let w' :=
      match c with
      | NotStarted _ => w
      | Exited _ _ =>
          World (<[tmp_id out_path := produced]> (files w)) (next_tmp w)
      end in
    (Py.obind (check_true c) (fun _ => Py.Ok tt), w').

(** The probe-then-act part of [burn_subtitles]; the value is
    [used_ffmpeg]. *)
Definition render (t : tools) (video_path srt_path out_path : path)
    (force_style : string) : M bool :=
  if _ffmpeg_available t then
    try_except
      (run_render t (render_cmd video_path srt_path out_path force_style) out_path;;
       mret true)
      (fun _ => shutil_copy video_path out_path;; mret false)
  else
    shutil_copy video_path out_path;; mret false.

Definition burn_subtitles (t : tools) (file : UploadFile) (srt : string)
    (position color : string) (font_size : Z) (bg_opacity : Q)
    : M FileResponse :=
  if no_filename file then raise no_file_provided else
  video_path ← _save_upload_to_temp file;
  srt_path ← mkstemp ".srt";
  write_file srt_path (encode_utf8 srt);;
  out_path ← mkstemp ".mp4";
  force_style ← lift (Style.force_style position color font_size bg_opacity);
  used_ffmpeg ← render t video_path srt_path out_path force_style;
  try_except (os_remove video_path;; os_remove srt_path) (fun _ => mret tt);;
  let filename := if used_ffmpeg : bool then "subtitled.mp4" else "video.mp4" in
  mret (Response out_path "video/mp4" filename).

(** [upload_srt] answers [{"srt": content}]. *)
Definition upload_srt (file : UploadFile) : Py.outcome Utf8.text :=
  if no_filename file then Py.Raise no_file_provided
  else Utf8.decode Utf8.Ignore (content file).

Section Transcribe.

(** Python's [float] on a string, after [strip]: a parameter of the
    model. *)
Variable float_of_stdout : string -> Py.outcome Q.

Definition ffprobe_cmd (p : path) : list string :=
  [ "ffprobe"; "-v"; "error"; "-show_entries"; "format=duration"; "-of";
    "default=noprint_wrappers=1:nokey=1"; path_name p ].

Definition _ffprobe_duration (t : tools) (p : path) : M (option Q) :=
  try_except
    (fun w =>
       (Py.obind (check_true (ffprobe t (ffprobe_cmd p) (files w)))
          (fun out => Py.obind (float_of_stdout out) (fun d => Py.Ok (Some d))),
        w))
    (fun _ => mret None).

(** [x or 9.0] for an optional float [x]. *)
Definition or_default (x : option Q) : Q :=
  match x with
  | Some d => if Py.truthy d then d else 9
  | None => 9
  end.

(** [transcribe_video] answers [{"srt": srt_text, "duration": duration}]. *)
Definition transcribe_video (t : tools) (file : UploadFile) : M (string * Q) :=
  if no_filename file then raise no_file_provided else
  temp_path ← _save_upload_to_temp file;
  probed ← _ffprobe_duration t temp_path;
  let duration := or_default probed in
  let srt_text := Srt._generate_demo_srt duration in
  try_except (os_remove temp_path) (fun _ => mret tt);;
  mret (srt_text, duration).

End Transcribe.

End Api.

(** ** Vocabulary of the statements

    Notions the theorems are phrased with.  They are derived from the
    definitions above, or (where said so) follow the wording of the
    specification; none of them is used by the embedded code. *)

Module Spec.

Import Sys Api.

(** *** Timestamps *)

(** Whole seconds of a time, and the milliseconds of its fractional
    part, truncated. *)
Definition total_seconds (t : Q) : Z := Qfloor t.
Definition millis (t : Q) : Z := Qfloor ((t - inject_Z (Qfloor t)) * 1000).






(** *** Cues *)

Definition text1 : string := "Namaste! Yeh demo transcription hai.".
Definition text2 : string := "Aap yahan subtitles edit kar sakte ho.".
Definition text3 : string := "Jab ready ho, burn-in karke download kar lo.".


(** *** Colours *)








(** *** The burn request *)

Definition is_ok {A} (o : Py.outcome A) : bool :=
  match o with Py.Ok _ => true | Py.Raise _ => false end.

Definition upload_suffix (file : UploadFile) : string :=
  let ext := splitext_ext (default "" (filename file)) in
  match ext with
  | EmptyString => ".bin"
  | _ => ext
  end.

(** The first steps of [burn_subtitles]: the three temporary files. *)
Definition stage (file : UploadFile) (srt : string) : M (path * path * path) :=
  video_path ← _save_upload_to_temp file;
  srt_path ← mkstemp ".srt";
  write_file srt_path (encode_utf8 srt);;
  out_path ← mkstemp ".mp4";
  mret (video_path, srt_path, out_path).

(** What the render invocation of a request does: the outcome of
    [subprocess.run(cmd, check=True)] on the staged files. *)
Definition render_outcome (t : tools) (file : UploadFile) (srt style : string)
    (w : world) : Py.outcome string :=
  match stage file srt w with
  | (Py.Ok (vp, sp, op), w1) =>
      check_true (fst (ffmpeg_render t (render_cmd vp sp op style) (files w1)))
  | (Py.Raise e, _) => Py.Raise e
  end.

(** *** Sample inputs *)

Definition empty_world : world := World ∅ 0.

Definition sample_upload : UploadFile :=
  Upload (Some "clip.mp4") [Byte.x00; Byte.x01; Byte.x02; Byte.xff].

(** No [ffmpeg] binary at all. *)
Definition absent_engine : tools :=
  Tools (NotStarted Py.FileNotFoundError)
        (fun _ _ => (NotStarted Py.FileNotFoundError, []))
        (fun _ _ => NotStarted Py.FileNotFoundError).

(** [ffmpeg] is there, but the render exits with status 1 after
    writing a few bytes; [ffprobe] reports a zero duration. *)
Definition broken_engine : tools :=
  Tools (Exited 0 "")
        (fun _ _ => (Exited 1 "", [Byte.x2a]))
        (fun _ _ => Exited 0 "0.0").

(** [ffmpeg] renders. *)
Definition working_engine : tools :=
  Tools (Exited 0 "")
        (fun _ _ => (Exited 0 "", [Byte.x2a; Byte.x2b]))
        (fun _ _ => Exited 0 "0.0").

Definition sample_style : string :=
  "Alignment=2,Fontsize=28,PrimaryColour=&H00FFFFFF,BackColour=&H99000000,Outline=1,BorderStyle=3".

(** A stand-in for [float] that knows one literal. *)
Definition sample_float (s : string) : Py.outcome Q :=
  if String.eqb s "0.0" then Py.Ok 0%Q else Py.Raise Py.ValueError.

End Spec.

Import Spec.

(** ** Further vocabulary

    Notions used by the properties of the code that lie beyond the
    timestamp, colour and fallback statements above. *)

Module Vocab.

Import Sys Api.

(** [n] leading [#] characters. *)
Fixpoint hashes (n : nat) : string :=
  match n with
  | O => ""
  | S k => String "#" (hashes k)
  end.

(** Characters that cannot end or split a quoted filter option:
    letters, digits and [&], [=], [,], [-]. *)
Definition safe_char (c : ascii) : bool :=
  let n := nat_of_ascii c in
  (Nat.leb 48 n && Nat.leb n 57) || (Nat.leb 65 n && Nat.leb n 90)
  || (Nat.leb 97 n && Nat.leb n 122)
  || Nat.eqb n 38 || Nat.eqb n 61 || Nat.eqb n 44 || Nat.eqb n 45.

Fixpoint all_safe (s : string) : bool :=
  match s with
  | EmptyString => true
  | String c rest => safe_char c && all_safe rest
  end.

(** Does [c] occur in [s]? *)
Fixpoint occurs (c : ascii) (s : string) : bool :=
  match s with
  | EmptyString => false
  | String a rest => Ascii.eqb a c || occurs c rest
  end.

(** The bytes the render invocation of a request leaves in the output
    file. *)
Definition render_output (t : tools) (file : UploadFile) (srt style : string)
    (w : world) : bytes :=
  match stage file srt w with
  | (Py.Ok (vp, sp, op), w1) =>
      snd (ffmpeg_render t (render_cmd vp sp op style) (files w1))
  | (Py.Raise _, _) => []
  end.


(** The code points of a text made of code points below 256. *)
Definition code_points (s : string) : list N :=
  map N_of_ascii (list_ascii_of_string s).

(** Unicode scalar values: at most 10FFFF and not a surrogate. *)
Definition is_scalar (cp : N) : bool :=
  (cp <? 55296)%N || ((57343 <? cp)%N && (cp <? 1114112)%N).

End Vocab.

Import Vocab.

(** * Properties *)

(** ** Rationals: truncation, floor, [//] and [%] *)

Section Rationals.
Local Open Scope Q_scope.

Lemma int_floor (q : Q) : 0 <= q -> Py.int q = Qfloor q.
Proof.
  destruct q as [n d]. unfold Qle, Py.int, Qfloor. simpl. intros H.
  apply Z.quot_div_nonneg; lia.
Qed.

Lemma int_inject_Z (z : Z) : Py.int (inject_Z z) = z.
Proof. unfold Py.int. simpl. apply Z.quot_1_r. Qed.

Lemma floor_nonneg (q : Q) : 0 <= q -> (0 <= Qfloor q)%Z.
Proof.
  intros H. change 0%Z with (Qfloor 0). apply Qfloor_resp_le. exact H.
Qed.

Lemma int_floor_nonneg (q : Q) : (0 <= Qfloor q)%Z -> Py.int q = Qfloor q.
Proof.
  intros H. apply int_floor.
  apply Qle_trans with (inject_Z (Qfloor q)); [|apply Qfloor_le].
  change 0 with (inject_Z 0). rewrite <- Zle_Qle. exact H.
Qed.

Lemma Qfloor_add_Z (q : Q) (k : Z) : Qfloor (q + inject_Z k) = (Qfloor q + k)%Z.
Proof.
  destruct q as [n d]. unfold Qfloor, Qplus, inject_Z. simpl.
  rewrite Pos.mul_1_r, Z.mul_1_r.
  rewrite Z.div_add by lia. reflexivity.
Qed.

Lemma Qfloor_sub_Z (q : Q) (k : Z) : Qfloor (q - inject_Z k) = (Qfloor q - k)%Z.
Proof.
  unfold Qminus.
  assert (E : - inject_Z k == inject_Z (- k))
    by (unfold inject_Z, Qopp, Qeq; simpl; lia).
  rewrite E, Qfloor_add_Z. lia.
Qed.

Lemma Qfloor_div_pos (q : Q) (p : positive) :
  Qfloor (q / (Zpos p # 1)) = (Qfloor q / Zpos p)%Z.
Proof.
  destruct q as [n d]. unfold Qfloor, Qdiv, Qmult, Qinv, inject_Z. simpl.
  rewrite Z.mul_1_r, Pos2Z.inj_mul.
  symmetry. apply Z.div_div; lia.
Qed.

Lemma floor_mod (t : Q) (p : positive) :
  Qfloor (Py.mod_ t (Zpos p # 1)) = (Qfloor t mod Zpos p)%Z.
Proof.
  unfold Py.mod_. rewrite Qfloor_div_pos.
  change (Zpos p # 1) with (inject_Z (Zpos p)).
  rewrite <- inject_Z_mult, Qfloor_sub_Z.
  rewrite Z.mod_eq by lia. reflexivity.
Qed.

Lemma Qltb_lt (a b : Q) : Py.Qltb a b = true <-> a < b.
Proof.
  unfold Py.Qltb. rewrite negb_true_iff. split.
  - intros H. apply Qnot_le_lt. intros L. apply Qle_bool_iff in L. congruence.
  - intros H. destruct (Qle_bool b a) eqn:E; [|reflexivity].
    apply Qle_bool_iff in E. exfalso. by apply (Qlt_not_le a b).
Qed.

Lemma Qltb_ge (a b : Q) : Py.Qltb a b = false <-> b <= a.
Proof. unfold Py.Qltb. rewrite negb_false_iff. apply Qle_bool_iff. Qed.

Lemma min_cases (a b : Q) :
  (b < a /\ Py.min a b = b) \/ (a <= b /\ Py.min a b = a).
Proof.
  unfold Py.min. destruct (Py.Qltb b a) eqn:E.
  - left. by apply Qltb_lt in E.
  - right. by apply Qltb_ge in E.
Qed.




End Rationals.

(** ** Formatting and reading decimal fields *)

Section Formatting.

Lemma length_app (s1 s2 : string) :
  String.length (s1 ++ s2) = (String.length s1 + String.length s2)%nat.
Proof. induction s1 as [|c s1 IH]; simpl; auto. Qed.

Lemma zeros_length (k : nat) : String.length (Py.zeros k) = k.
Proof. induction k; simpl; auto. Qed.




Lemma format_0d_nonneg (w : nat) (z : Z) :
  (0 <= z)%Z ->
  Py.format_0d w z =
    Py.zeros (w - String.length (Py.dec_digits (Z.to_N z)))
      ++ Py.dec_digits (Z.to_N z).
Proof.
  intros H. unfold Py.format_0d, Py.format_zero.
  destruct (Z.ltb_spec z 0); [lia|]. simpl.
  replace (Z.abs_N z) with (Z.to_N z) by (destruct z; simpl; auto; lia).
  by rewrite Nat.sub_0_r.
Qed.


Lemma format_0d_length (w : nat) (z : Z) :
  (0 <= z)%Z ->
  String.length (Py.format_0d w z)
  = Nat.max w (String.length (Py.dec_digits (Z.to_N z))).
Proof.
  intros H. rewrite format_0d_nonneg by done.
  rewrite length_app, zeros_length. lia.
Qed.

(** Numbers below 1000 have at most three digits, numbers below 100 at
    most two: checked on every such number. *)
Lemma dec_digits_small (n : nat) :
  (n < 1000)%nat ->
  (String.length (Py.dec_digits (N.of_nat n)) <= 3)%nat /\
  ((n < 100)%nat -> (String.length (Py.dec_digits (N.of_nat n)) <= 2)%nat).
Proof.
  intros H.
  assert (A : forallb (fun k =>
              Nat.leb (String.length (Py.dec_digits (N.of_nat k))) 3
              && (negb (Nat.ltb k 100)
                  || Nat.leb (String.length (Py.dec_digits (N.of_nat k))) 2))
            (seq 0 1000) = true) by (vm_compute; reflexivity).
  rewrite forallb_forall in A.
  specialize (A n). rewrite in_seq in A.
  specialize (A ltac:(lia)). apply andb_prop in A as [A1 A2].
  apply Nat.leb_le in A1. split; [exact A1|].
  intros Hn. apply orb_prop in A2 as [A2|A2].
  - apply negb_true_iff, Nat.ltb_ge in A2. lia.
  - by apply Nat.leb_le.
Qed.

Lemma format_0d_len2 (z : Z) :
  (0 <= z < 100)%Z -> String.length (Py.format_0d 2 z) = 2%nat.
Proof.
  intros H. rewrite format_0d_length by lia.
  destruct (dec_digits_small (Z.to_nat z)) as [_ B]; [lia|].
  rewrite Z_nat_N in B. specialize (B ltac:(lia)). lia.
Qed.

Lemma format_0d_len3 (z : Z) :
  (0 <= z < 1000)%Z -> String.length (Py.format_0d 3 z) = 3%nat.
Proof.
  intros H. rewrite format_0d_length by lia.
  destruct (dec_digits_small (Z.to_nat z)) as [B _]; [lia|].
  rewrite Z_nat_N in B. lia.
Qed.







End Formatting.

(** ** Timestamps *)

Section Timestamps.
Local Open Scope Q_scope.

Lemma ts_hours (t : Q) : Py.int (Py.floordiv t 3600) = (Qfloor t / 3600)%Z.
Proof.
  unfold Py.floordiv. rewrite int_inject_Z. apply (Qfloor_div_pos t 3600).
Qed.

Lemma ts_minutes (t : Q) :
  Py.int (Py.floordiv (Py.mod_ t 3600) 60) = (Qfloor t mod 3600 / 60)%Z.
Proof.
  unfold Py.floordiv. rewrite int_inject_Z.
  rewrite (Qfloor_div_pos _ 60). rewrite (floor_mod t 3600). reflexivity.
Qed.

Lemma ts_seconds (t : Q) : Py.int (Py.mod_ t 60) = (Qfloor t mod 60)%Z.
Proof.
  rewrite int_floor_nonneg; rewrite (floor_mod t 60); [reflexivity|].
  apply Z.mod_pos_bound. lia.
Qed.

Lemma frac_bounds (t : Q) :
  0 <= (t - inject_Z (Qfloor t)) * 1000
  /\ (t - inject_Z (Qfloor t)) * 1000 < 1000.
Proof.
  pose proof (Qfloor_le t) as H1. pose proof (Qlt_floor t) as H2.
  rewrite inject_Z_plus in H2. change (inject_Z 1) with 1 in H2.
  split.
  - apply Qmult_le_0_compat; [|discriminate]. lra.
  - apply Qlt_le_trans with (1 * 1000); [|discriminate].
    apply Qmult_lt_compat_r; [reflexivity|]. lra.
Qed.

Lemma millis_bounds (t : Q) : (0 <= millis t < 1000)%Z.
Proof.
  unfold millis. destruct (frac_bounds t) as [H1 H2]. split.
  - by apply floor_nonneg.
  - assert (H3 : inject_Z (Qfloor ((t - inject_Z (Qfloor t)) * 1000))
                 < inject_Z 1000).
    { eapply Qle_lt_trans; [apply Qfloor_le|exact H2]. }
    by rewrite <- Zlt_Qlt in H3.
Qed.


Lemma ts_millis (t : Q) :
  0 <= t -> Py.int ((t - inject_Z (Py.int t)) * 1000) = millis t.
Proof.
  intros H. rewrite (int_floor t H). apply int_floor. apply frac_bounds.
Qed.

(** The float operations of [ts] compute the integer quotients and
    remainders of the whole seconds. *)
Lemma ts_eq (t : Q) :
  0 <= t ->
  Srt.ts t =
    Py.format_0d 2 (total_seconds t / 3600) ++ ":" ++
    Py.format_0d 2 (total_seconds t mod 3600 / 60) ++ ":" ++
    Py.format_0d 2 (total_seconds t mod 60) ++ "," ++
    Py.format_0d 3 (millis t).
Proof.
  intros H. unfold Srt.ts.
  by rewrite ts_hours, ts_minutes, ts_seconds, ts_millis.
Qed.

Lemma ts_field_bounds (t : Q) :
  0 <= t ->
  (0 <= total_seconds t / 3600
   /\ 0 <= total_seconds t mod 3600 / 60 < 60
   /\ 0 <= total_seconds t mod 60 < 60
   /\ 0 <= millis t < 1000)%Z.
Proof.
  intros H.
  assert (HT : (0 <= total_seconds t)%Z) by by apply floor_nonneg.
  split; [apply Z.div_pos; lia|].
  split.
  { pose proof (Z.mod_pos_bound (total_seconds t) 3600 ltac:(lia)).
    split; [apply Z.div_pos; lia|]. apply Z.div_lt_upper_bound; lia. }
  split; [apply Z.mod_pos_bound; lia|].
  apply millis_bounds.
Qed.





End Timestamps.

(** ** Placeholder cues *)

Section Cues.
Local Open Scope Q_scope.

Lemma fix_end_cases (start e : Q) :
  (e <= start /\ Srt.fix_end start e = start + 1) \/
  (start < e /\ Srt.fix_end start e = e).
Proof.
  unfold Srt.fix_end. destruct (Qle_bool e start) eqn:E.
  - left. by apply Qle_bool_iff in E.
  - right. split; [|reflexivity]. apply Qnot_le_lt. intros L.
    apply Qle_bool_iff in L. congruence.
Qed.



End Cues.

(** ** Colour encoding *)

Section Colours.
Local Open Scope Q_scope.










(** A colour whose length after [lstrip] is not 6 is read as white. *)
Lemma hex_to_ass_fallback (color : string) (a : Q) :
  String.length (Style.lstrip_hash color) <> 6%nat ->
  Style.hex_to_ass color a = Style.hex_to_ass "FFFFFF" a.
Proof.
  intros H. unfold Style.hex_to_ass.
  destruct (Nat.eqb_spec (String.length (Style.lstrip_hash color)) 6);
    [contradiction|].
  reflexivity.
Qed.

Example hex_to_ass_ZZZ :
  Style.hex_to_ass "#ZZZ" 0 = Style.hex_to_ass "#FFFFFF" 0
  /\ Style.hex_to_ass "#ZZZ" 0 = Py.Ok "&H00FFFFFF".
Proof. split; vm_compute; reflexivity. Qed.

Example hex_to_ass_green :
  Style.hex_to_ass "#00FF00" 0 = Py.Ok "&H0000FF00".
Proof. vm_compute. reflexivity. Qed.

(** C2. The colour [#ZZZZZZ] has six characters after the [#], so the
    length test lets it through and [int("ZZ", 16)] raises
    [ValueError]: the encoding does not fall back to white there, and
    the burn request made with it ends in that exception. *)
Theorem hex_to_ass_nonhex_raises :
  Style.hex_to_ass "#ZZZZZZ" 0 = Py.Raise Py.ValueError
  /\ Style.hex_to_ass "#FFFFFF" 0 = Py.Ok "&H00FFFFFF"
  /\ fst (Api.burn_subtitles working_engine sample_upload "1" "bottom"
            "#ZZZZZZ" 28 (4 # 10) empty_world) = Py.Raise Py.ValueError.
Proof. repeat split; vm_compute; reflexivity. Qed.







End Colours.

(** ** Decoding uploaded subtitles *)

Section Decoding.
Import Utf8.

Lemma emit_ok (cp : N) (k : Py.outcome text) (t : text) :
  k = Py.Ok t -> emit cp k = Py.Ok (cp :: t).
Proof. by intros ->. Qed.

Lemma emit_inv (cp : N) (k : Py.outcome text) (t : text) :
  emit cp k = Py.Ok t -> exists t', k = Py.Ok t' /\ t = cp :: t'.
Proof.
  destruct k as [t'|e]; simpl; [|discriminate]. intros [= <-]. by exists t'.
Qed.

Ltac use_conditions :=
  repeat match goal with
  | H : ?c = true |- context [if ?c then _ else _] => rewrite H
  | H : ?c = false |- context [if ?c then _ else _] => rewrite H
  end.

(** Under [Ignore] the decoder always produces a text, and that text
    is the strict decoding of what is left of the input once the
    ill-formed ranges are taken out. *)
Lemma ignore_drops_bounded (n : nat) (bs : list N) :
  (length bs <= n)%nat ->
  exists kept t,
    sublist kept bs /\
    decode_loop Ignore bs = Py.Ok t /\
    decode_loop Strict kept = Py.Ok t.
Proof.
  revert bs. induction n as [|n IH]; intros bs Hlen.
  { destruct bs; [|simpl in Hlen; lia]. exists [], []. by repeat split. }
  destruct bs as [|b0 r0]; [exists [], []; by repeat split|].
  simpl in Hlen.
  assert (drop1 : exists kept t, sublist kept (b0 :: r0) /\
            decode_loop Ignore r0 = Py.Ok t /\ decode_loop Strict kept = Py.Ok t).
  { destruct (IH r0 ltac:(lia)) as (k & t & S & E1 & E2).
    exists k, t. split; [by apply sublist_cons|done]. }
  assert (dropall : exists kept t, sublist kept (b0 :: r0) /\
            @Py.Ok text [] = Py.Ok t /\ decode_loop Strict kept = Py.Ok t).
  { exists [], []. split; [apply sublist_nil_l|done]. }
  cbn [decode_loop on_error].
  destruct (b0 <? 128)%N eqn:C1.
  { destruct (IH r0 ltac:(lia)) as (k & t & S & E1 & E2).
    exists (b0 :: k), (b0 :: t). split; [by apply sublist_skip|].
    split; [by apply emit_ok|]. cbn [decode_loop]. rewrite C1. by apply emit_ok. }
  destruct (b0 <? 194)%N eqn:C2; [exact drop1|].
  destruct (b0 <? 224)%N eqn:C3.
  { destruct r0 as [|b1 r1]; [exact dropall|].
    destruct (is_cont b1) eqn:D1; [|exact drop1].
    simpl in Hlen.
    destruct (IH r1 ltac:(lia)) as (k & t & S & E1 & E2).
    eexists (b0 :: b1 :: k), _. split; [by do 2 apply sublist_skip|].
    split; [by apply emit_ok|].
    cbn [decode_loop]. use_conditions. by apply emit_ok. }
  destruct (b0 <? 240)%N eqn:C4.
  { destruct r0 as [|b1 r1]; [exact dropall|].
    match goal with |- context [if ?c then _ else _] => destruct c eqn:D1 end;
      [exact drop1|].
    destruct r1 as [|b2 r2]; [exact dropall|].
    simpl in Hlen.
    destruct (is_cont b2) eqn:D2.
    - destruct (IH r2 ltac:(lia)) as (k & t & S & E1 & E2).
      eexists (b0 :: b1 :: b2 :: k), _. split; [by do 3 apply sublist_skip|].
      split; [by apply emit_ok|].
      cbn [decode_loop]. use_conditions. by apply emit_ok.
    - destruct (IH (b2 :: r2) ltac:(simpl; lia)) as (k & t & S & E1 & E2).
      exists k, t. split; [by do 2 apply sublist_cons|done]. }
  destruct (b0 <? 245)%N eqn:C5; [|exact drop1].
  destruct r0 as [|b1 r1]; [exact dropall|].
  match goal with |- context [if ?c then _ else _] => destruct c eqn:D1 end;
    [exact drop1|].
  destruct r1 as [|b2 r2]; [exact dropall|].
  simpl in Hlen.
  destruct (is_cont b2) eqn:D2; cbn [negb].
  2:{ destruct (IH (b2 :: r2) ltac:(simpl; lia)) as (k & t & S & E1 & E2).
      exists k, t. split; [by do 2 apply sublist_cons|done]. }
  destruct r2 as [|b3 r3]; [exact dropall|].
  simpl in Hlen.
  destruct (is_cont b3) eqn:D3.
  - destruct (IH r3 ltac:(lia)) as (k & t & S & E1 & E2).
    eexists (b0 :: b1 :: b2 :: b3 :: k), _.
    split; [by do 4 apply sublist_skip|].
    split; [by apply emit_ok|].
    cbn [decode_loop]. use_conditions. cbn [negb]. by apply emit_ok.
  - destruct (IH (b3 :: r3) ltac:(simpl; lia)) as (k & t & S & E1 & E2).
    exists k, t. split; [by do 3 apply sublist_cons|done].
Qed.

(** What decodes strictly decodes to the same text under [Ignore]. *)
Lemma strict_then_ignore_bounded (n : nat) (bs : list N) (t : text) :
  (length bs <= n)%nat ->
  decode_loop Strict bs = Py.Ok t -> decode_loop Ignore bs = Py.Ok t.
Proof.
  revert bs t. induction n as [|n IH]; intros bs t Hlen.
  { destruct bs; [done|simpl in Hlen; lia]. }
  destruct bs as [|b0 r0]; [done|]. simpl in Hlen.
  cbn [decode_loop on_error].
  repeat match goal with
  | |- context [if ?c then _ else _] => destruct c eqn:?
  | |- context [match ?l with [] => _ | _ :: _ => _ end] =>
      is_var l; destruct l; simpl in Hlen
  end; try discriminate;
  intros (t' & E & ->)%emit_inv; apply emit_ok; apply IH; auto; lia.
Qed.

Lemma sublist_map_inv {A B} (f : A -> B) (k : list B) (l : list A) :
  sublist k (map f l) -> exists l0, sublist l0 l /\ k = map f l0.
Proof.
  revert k. induction l as [|a l IH]; intros k H; simpl in H.
  - apply sublist_nil_r in H as ->. exists []. by split.
  - destruct k as [|b k].
    + exists []. split; [apply sublist_nil_l|done].
    + apply sublist_cons_r in H as [H|(k' & E & H)].
      * destruct (IH _ H) as (l0 & S & E).
        exists l0. split; [by apply sublist_cons|done].
      * injection E as -> ->. destruct (IH _ H) as (l0 & S & E).
        exists (a :: l0). split; [by apply sublist_skip|]. simpl. by rewrite E.
Qed.

Example decode_strict_raises :
  decode Strict [Byte.x61; Byte.xff; Byte.x62] = Py.Raise Py.UnicodeDecodeError.
Proof. reflexivity. Qed.

(** C9, as the claim states it: the byte FF between [a] and [b] is not
    replaced by anything.  The endpoint answers the two-character text
    [ab], the same as for the upload [ab], where decoding with
    replacement gives three characters, U+FFFD in the middle. *)
Lemma upload_srt_not_replaced :
  Api.upload_srt (Sys.Upload (Some "subs.srt") [Byte.x61; Byte.xff; Byte.x62])
    = Py.Ok [97%N; 98%N]
  /\ Api.upload_srt (Sys.Upload (Some "subs.srt") [Byte.x61; Byte.x62])
    = Py.Ok [97%N; 98%N]
  /\ decode Replace [Byte.x61; Byte.xff; Byte.x62]
    = Py.Ok [97%N; 65533%N; 98%N]
  /\ Api.upload_srt (Sys.Upload (Some "subs.srt") [Byte.x61; Byte.xff; Byte.x62])
     <> decode Replace [Byte.x61; Byte.xff; Byte.x62].
Proof. repeat split; try reflexivity. vm_compute. discriminate. Qed.

(** C9, amended. For a named upload of any bytes the endpoint answers
    a text and never raises; ill-formed bytes are left out: the text is
    the strict decoding of a subsequence of the uploaded bytes, and it
    is the strict decoding of the upload itself when that exists. *)
Theorem upload_srt_lossy (file : Sys.UploadFile) :
  Sys.no_filename file = false ->
  exists text,
    Api.upload_srt file = Py.Ok text
    /\ (exists kept, sublist kept (Sys.content file)
                     /\ decode Strict kept = Py.Ok text)
    /\ (forall t, decode Strict (Sys.content file) = Py.Ok t -> text = t).
Proof.
  intros Hname. unfold Api.upload_srt. rewrite Hname. unfold decode.
  destruct (ignore_drops_bounded _ (map Byte.to_N (Sys.content file)) (le_n _))
    as (kept & text & S & E1 & E2).
  exists text. split; [exact E1|]. split.
  - destruct (sublist_map_inv _ _ _ S) as (l0 & S0 & ->). by exists l0.
  - intros t Ht.
    apply (strict_then_ignore_bounded _ _ _ (le_n _)) in Ht. congruence.
Qed.

Lemma upload_srt_lossy_witness :
  Sys.no_filename sample_upload = false
  /\ exists text, Api.upload_srt sample_upload = Py.Ok text.
Proof.
  split; [reflexivity|].
  destruct (upload_srt_lossy sample_upload eq_refl) as (text & E & _).
  exists text. exact E.
Defined.

End Decoding.

(** ** The endpoints *)

Section Endpoints.
Import Sys Api.


(** A process fails [check=True] when it did not start or exited with
    a non-zero status. *)
Lemma check_true_fails (c : completed) :
  is_ok (check_true c) = false <->
  (exists e, c = NotStarted e)
  \/ (exists rc out, c = Exited rc out /\ rc <> 0%Z).
Proof.
  destruct c as [e|rc out]; simpl.
  - split; [intros _; left; by exists e|done].
  - destruct (Z.eqb_spec rc 0) as [->|Hrc]; simpl; split.
    + discriminate.
    + intros [[e [=]]|(rc' & out' & [= <- <-] & Hne)]. congruence.
    + intros _. right. by exists rc, out.
    + done.
Qed.


Lemma stage_eq (file : UploadFile) (srt : string) (w : world) :
  let n := next_tmp w in
  stage file srt w =
    (Py.Ok (Path n (upload_suffix file), Path (S n) ".srt",
            Path (S (S n)) ".mp4"),
     World (<[S (S n) := []]> (<[S n := encode_utf8 srt]> (<[S n := []]>
              (<[n := content file]> (<[n := []]> (files w))))))
           (S (S (S n)))).
Proof. reflexivity. Qed.







Example burn_working_engine :
  fst (burn_subtitles working_engine sample_upload "1" "bottom" "#FFFFFF"
         28 (4 # 10) empty_world)
  = Py.Ok (Response (Path 2 ".mp4") "video/mp4" "subtitled.mp4").
Proof. vm_compute. reflexivity. Qed.

Example burn_without_file :
  fst (burn_subtitles working_engine (Upload None []) "1" "bottom" "#FFFFFF"
         28 (4 # 10) empty_world)
  = Py.Raise (Py.HTTPException 400 "No file provided").
Proof. reflexivity. Qed.

End Endpoints.

(** ** Duration probing *)

Section Transcription.
Import Sys Api.
Local Open Scope Q_scope.

Variable float_of_stdout : string -> Py.outcome Q.






End Transcription.


Example transcribe_probe_zero :
  fst (Api.transcribe_video sample_float broken_engine sample_upload
         empty_world)
  = Py.Ok (Srt._generate_demo_srt 9, 9%Q)
  /\ fst (Api.transcribe_video sample_float absent_engine sample_upload
            empty_world)
     = Py.Ok (Srt._generate_demo_srt 9, 9%Q).
Proof. split; vm_compute; reflexivity. Qed.

(** * Further properties of the code *)

(** ** Timestamps: width, resolution, negative times *)

Section TimestampEdges.
Local Open Scope Q_scope.

Lemma dec_digits_short (n : N) :
  (String.length (Py.dec_digits n) <= 2)%nat -> (n < 100)%N.
Proof.
  unfold Py.dec_digits. intros H.
  rewrite <- (DecimalN.Unsigned.of_to n).
  destruct (N.to_uint n) as [|u|u|u|u|u|u|u|u|u|u]; simpl in H;
    try (vm_compute; reflexivity);
    (destruct u as [|u|u|u|u|u|u|u|u|u|u]; simpl in H;
     try (vm_compute; reflexivity);
     (destruct u; simpl in H; try lia; vm_compute; reflexivity)).
Qed.

(** X1. A non-negative time below 100 hours is encoded in exactly 12
    characters; from 100 hours on the hours field widens and the
    timestamp has at least 13. *)
Theorem ts_length (t : Q) :
  0 <= t ->
  (t < 360000 -> String.length (Srt.ts t) = 12%nat)
  /\ (360000 <= t -> (13 <= String.length (Srt.ts t))%nat).
Proof.
  intros H.
  destruct (ts_field_bounds t H) as (Hh & Hm & Hs & Hms).
  rewrite (ts_eq t H). rewrite !length_app.
  rewrite (format_0d_len2 (total_seconds t mod 3600 / 60)) by lia.
  rewrite (format_0d_len2 (total_seconds t mod 60)) by lia.
  rewrite (format_0d_len3 (millis t)) by lia.
  simpl String.length.
  split.
  - intros Hlt.
    assert (HT : (total_seconds t < 360000)%Z).
    { unfold total_seconds. rewrite Zlt_Qlt.
      eapply Qle_lt_trans; [apply Qfloor_le|exact Hlt]. }
    rewrite format_0d_len2; [lia|].
    split; [lia|]. apply Z.div_lt_upper_bound; lia.
  - intros Hge.
    assert (HT : (360000 <= total_seconds t)%Z).
    { unfold total_seconds. change 360000%Z with (Qfloor 360000).
      by apply Qfloor_resp_le. }
    rewrite format_0d_length by lia.
    assert (Hh100 : (100 <= total_seconds t / 3600)%Z)
      by (apply Z.div_le_lower_bound; lia).
    destruct (Nat.le_gt_cases
                (String.length
                   (Py.dec_digits (Z.to_N (total_seconds t / 3600)))) 2)
      as [L|L]; [|lia].
    apply dec_digits_short in L. lia.
Qed.

Lemma ts_length_witness :
  0 <= 366125 # 100 /\ String.length (Srt.ts (366125 # 100)) = 12%nat.
Proof.
  assert (H : 0 <= 366125 # 100) by discriminate.
  split; [exact H|].
  apply (proj1 (ts_length (366125 # 100) H)). reflexivity.
Defined.







(** X3. [ts] does not guard against negative times: the hours field
    of a negative time is negative, so the text starts with a minus
    sign and is not of the [HH:MM:SS,mmm] form. *)
Theorem ts_negative (t : Q) :
  t < 0 -> exists rest, Srt.ts t = String "-" rest.
Proof.
  intros H. unfold Srt.ts. rewrite ts_hours.
  assert (Hf : (Qfloor t < 0)%Z).
  { rewrite Zlt_Qlt. eapply Qle_lt_trans; [apply Qfloor_le|exact H]. }
  assert (Hh : (Qfloor t / 3600 < 0)%Z) by (apply Z.div_lt_upper_bound; lia).
  unfold Py.format_0d at 1, Py.format_zero.
  destruct (Z.ltb_spec (Qfloor t / 3600) 0) as [_|?]; [|lia].
  eexists. reflexivity.
Qed.

Lemma ts_negative_witness :
  (-3) # 2 < 0 /\ exists rest, Srt.ts ((-3) # 2) = String "-" rest.
Proof.
  assert (H : (-3) # 2 < 0) by reflexivity.
  split; [exact H|]. exact (ts_negative ((-3) # 2) H).
Defined.

Example ts_negative_example : Srt.ts ((-3) # 2) = "-1:59:58,-500".
Proof. vm_compute. reflexivity. Qed.

(** X4. Whatever the duration, also zero or negative, the three cues
    are in temporal order and do not overlap, every time handed to
    [ts] is non-negative, and the last cue ends no earlier than the
    duration; a duration of at most 6 makes it end at 7, and above 6
    no end is forced. *)
Theorem demo_cues_ordered (d : Q) :
  exists e1 e2 e3,
    Srt.cues d = [(0, e1, text1); (3, e2, text2); (6, e3, text3)]
    /\ 0 < e1 /\ e1 <= 3
    /\ 3 < e2 /\ e2 <= 6
    /\ 6 < e3 /\ d <= e3
    /\ (d <= 6 -> e3 = 7)
    /\ (6 < d -> Srt.cues d = Srt.segments d).
Proof.
  exists (Srt.fix_end 0 (Py.min 3 d)), (Srt.fix_end 3 (Py.min 6 d)),
         (Srt.fix_end 6 d).
  split; [reflexivity|].
  unfold Srt.cues, Srt.segments. simpl map.
  destruct (min_cases 3 d) as [[A1 ->]|[A1 ->]];
  destruct (min_cases 6 d) as [[A2 ->]|[A2 ->]];
  destruct (fix_end_cases 0 d) as [[B1 E1]|[B1 E1]];
  destruct (fix_end_cases 3 d) as [[B2 E2]|[B2 E2]];
  destruct (fix_end_cases 6 d) as [[B3 E3]|[B3 E3]];
  destruct (fix_end_cases 0 3) as [[B4 E4]|[B4 E4]];
  destruct (fix_end_cases 3 6) as [[B5 E5]|[B5 E5]];
  try lra;
  rewrite ?E1, ?E2, ?E3, ?E4, ?E5;
  repeat split; try lra; try reflexivity; intros; try lra.
Qed.

End TimestampEdges.

(** ** Style encoder: fallback, failure, alignment, directive text *)

Section StyleEdges.
Local Open Scope Q_scope.

(** X5. A colour whose length after stripping the leading [#]s is not
    6 never raises: it is encoded as white with the requested alpha. *)
Theorem hex_to_ass_short (color : string) (a : Q) :
  String.length (Style.lstrip_hash color) <> 6%nat ->
  Style.hex_to_ass color a
  = Py.Ok ("&H" ++ Py.format_0X 2 (Style.alpha_byte a) ++ "FFFFFF").
Proof.
  intros H. rewrite (hex_to_ass_fallback color a H). reflexivity.
Qed.

Lemma hex_to_ass_short_witness :
  String.length (Style.lstrip_hash "#12345") <> 6%nat
  /\ Style.hex_to_ass "#12345" (1 # 2) = Py.Ok "&H7FFFFFFF".
Proof.
  assert (H : String.length (Style.lstrip_hash "#12345") <> 6%nat)
    by discriminate.
  split; [exact H|]. exact (hex_to_ass_short "#12345" (1 # 2) H).
Defined.

Lemma lstrip_hashes (n : nat) (s : string) :
  Style.lstrip_hash (hashes n ++ s) = Style.lstrip_hash s.
Proof. induction n as [|n IH]; simpl; auto. Qed.

(** X6. Any number of leading [#] characters is ignored, not only
    one. *)
Theorem hex_to_ass_hashes (n : nat) (color : string) (a : Q) :
  Style.hex_to_ass (hashes n ++ color) a = Style.hex_to_ass color a.
Proof. unfold Style.hex_to_ass. by rewrite lstrip_hashes. Qed.

Lemma int16_raises (s : string) (e : Py.exn) :
  Style.int16 s = Py.Raise e -> e = Py.ValueError.
Proof.
  unfold Style.int16.
  destruct (match Style.skip_spaces s with
            | String "+" rest => (1%Z, rest)
            | String "-" rest => ((-1)%Z, rest)
            | _ => (1%Z, Style.skip_spaces s)
            end) as [sign s1].
  set (s2 := match s1 with
             | String "0" (String "x" rest) | String "0" (String "X" rest) =>
                 match rest with String "_" rest' => rest' | _ => rest end
             | _ => s1 end).
  clearbody s2.
  assert (G : forall (o : Py.outcome Z),
            (o = Py.Raise Py.ValueError \/ exists v, o = Py.Ok v) ->
            o = Py.Raise e -> e = Py.ValueError).
  { intros o [->|[v ->]]; congruence. }
  apply G.
  destruct (Style.scan16 false 0 0 s2) as [v|].
  - destruct s2 as [|c r]; [right; eauto|].
    destruct c as [[] [] [] [] [] [] [] []]; eauto.
  - destruct s2 as [|c r]; [left; reflexivity|].
    destruct c as [[] [] [] [] [] [] [] []]; eauto.
Qed.

(** X7. When the colour encoding raises, the exception is
    [ValueError], the colour has exactly six characters after the
    leading [#]s, and the failure does not depend on the alpha. *)
Theorem hex_to_ass_raises (color : string) (a : Q) (e : Py.exn) :
  Style.hex_to_ass color a = Py.Raise e ->
  e = Py.ValueError
  /\ String.length (Style.lstrip_hash color) = 6%nat
  /\ forall a', Style.hex_to_ass color a' = Py.Raise Py.ValueError.
Proof.
  intros H.
  destruct (Nat.eq_dec (String.length (Style.lstrip_hash color)) 6%nat)
    as [L|L].
  2:{ rewrite (hex_to_ass_fallback color a L) in H. discriminate H. }
  assert (E : e = Py.ValueError).
  { unfold Style.hex_to_ass in H.
    repeat match type of H with
    | Py.obind ?c _ = _ =>
        let E := fresh "E" in
        destruct c eqn:E; simpl in H;
        [|injection H as <-; by apply int16_raises in E]
    end. discriminate H. }
  subst e. split; [reflexivity|]. split; [exact L|].
  intros a'. unfold Style.hex_to_ass in *.
  repeat match type of H with
  | Py.obind ?c _ = _ => destruct c; simpl in H |- *; [|exact H]
  end. discriminate H.
Qed.

Lemma hex_to_ass_raises_witness :
  Style.hex_to_ass "#12345G" 0 = Py.Raise Py.ValueError
  /\ Style.hex_to_ass "#12345G" 1 = Py.Raise Py.ValueError.
Proof.
  assert (H : Style.hex_to_ass "#12345G" 0 = Py.Raise Py.ValueError)
    by reflexivity.
  split; [exact H|].
  exact (proj2 (proj2 (hex_to_ass_raises "#12345G" 0 Py.ValueError H)) 1).
Defined.

(** X8. The alignment code is 8, 4, 6 or 5 exactly for the positions
    [top], [left], [right] and [center] (spelled so), and 2 for
    [bottom] and for every other text. *)
Theorem align_table (position : string) :
  (position = "bottom" /\ Style.align position = 2%Z)
  \/ (position = "top" /\ Style.align position = 8%Z)
  \/ (position = "left" /\ Style.align position = 4%Z)
  \/ (position = "right" /\ Style.align position = 6%Z)
  \/ (position = "center" /\ Style.align position = 5%Z)
  \/ (~ In position ["bottom"; "top"; "left"; "right"; "center"]
      /\ Style.align position = 2%Z).
Proof.
  unfold Style.align, Style.alignment_map.
  destruct (decide (position = "bottom")) as [->|N1]; [left; by split|].
  destruct (decide (position = "top")) as [->|N2]; [right; left; by split|].
  destruct (decide (position = "left")) as [->|N3];
    [right; right; left; by split|].
  destruct (decide (position = "right")) as [->|N4];
    [right; right; right; left; by split|].
  destruct (decide (position = "center")) as [->|N5];
    [right; right; right; right; left; by split|].
  do 5 right. split.
  - simpl. intros [?|[?|[?|[?|[?|[]]]]]]; congruence.
  - rewrite !lookup_insert_ne by congruence. by rewrite lookup_empty.
Qed.

Example align_is_case_sensitive : Style.align "Top" = 2%Z.
Proof. reflexivity. Qed.

Lemma all_safe_app (s1 s2 : string) :
  all_safe (s1 ++ s2) = all_safe s1 && all_safe s2.
Proof.
  induction s1 as [|c s1 IH]; simpl; [reflexivity|].
  rewrite IH. by rewrite andb_assoc.
Qed.

Lemma all_safe_zeros (k : nat) : all_safe (Py.zeros k) = true.
Proof. induction k; simpl; auto. Qed.

Lemma all_safe_dec (n : N) : all_safe (Py.dec_digits n) = true.
Proof. unfold Py.dec_digits. induction (N.to_uint n); simpl; auto. Qed.

Lemma all_safe_hex (n : N) : all_safe (Py.hex_digits n) = true.
Proof. unfold Py.hex_digits. induction (N.to_hex_uint n); simpl; auto. Qed.

Lemma all_safe_format (digits : N -> string) (w : nat) (z : Z) :
  (forall n, all_safe (digits n) = true) ->
  all_safe (Py.format_zero digits w z) = true.
Proof.
  intros H. unfold Py.format_zero.
  rewrite !all_safe_app, all_safe_zeros, H.
  by destruct (z <? 0)%Z.
Qed.

Lemma all_safe_hex_to_ass (color : string) (a : Q) (s : string) :
  Style.hex_to_ass color a = Py.Ok s -> all_safe s = true.
Proof.
  unfold Style.hex_to_ass.
  repeat match goal with
  | |- Py.obind ?c _ = _ -> _ => destruct c; simpl; [|discriminate]
  end.
  intros [= <-]. unfold Py.format_0X.
  rewrite !all_safe_app, !all_safe_format by apply all_safe_hex. reflexivity.
Qed.

Lemma all_safe_occurs (c : ascii) (s : string) :
  safe_char c = false -> all_safe s = true -> occurs c s = false.
Proof.
  intros Hc. induction s as [|a s IH]; simpl; [done|].
  intros [Ha Hs]%andb_prop. rewrite (IH Hs), orb_false_r.
  destruct (Ascii.eqb_spec a c) as [->|]; congruence.
Qed.

(** X9. Whatever position, colour, font size and opacity a request
    carries, the style directive handed to the engine consists of
    letters, digits and [&], [=], [,], [-] only: it holds no quote, no
    colon, no space and no backslash, so the request texts cannot
    close the quotes of the filter option they are put in. *)
Theorem force_style_safe (position color : string) (font_size : Z)
    (bg_opacity : Q) (style : string) :
  Style.force_style position color font_size bg_opacity = Py.Ok style ->
  all_safe style = true
  /\ occurs "'" style = false
  /\ occurs ":" style = false
  /\ occurs " " style = false
  /\ occurs (ascii_of_nat 92) style = false.
Proof.
  intros H.
  assert (S : all_safe style = true).
  { unfold Style.force_style, Style.primary, Style.back in H.
    destruct (Style.hex_to_ass color 0) as [p|] eqn:Ep; [|discriminate H].
    destruct (Style.hex_to_ass "000000" _) as [b|] eqn:Eb; [|discriminate H].
    simpl in H. injection H as <-.
    apply all_safe_hex_to_ass in Ep, Eb.
    unfold Py.str, Py.format_0d.
    rewrite !all_safe_app, !all_safe_format, Ep, Eb by apply all_safe_dec.
    reflexivity. }
  split; [exact S|].
  repeat split; apply all_safe_occurs; auto.
Qed.

Lemma force_style_safe_witness :
  Style.force_style "bottom" "#FFFFFF" 28 (4 # 10) = Py.Ok sample_style
  /\ occurs "'" sample_style = false.
Proof.
  assert (H : Style.force_style "bottom" "#FFFFFF" 28 (4 # 10)
              = Py.Ok sample_style) by reflexivity.
  split; [exact H|].
  exact (proj1 (proj2 (force_style_safe _ _ _ _ _ H))).
Defined.

End StyleEdges.

(** ** The burn handler: every way it ends *)

Section BurnEdges.
Import Sys Api.

(** The probe-then-act block as one equation. *)
Lemma render_world (t : tools) (vp sp op : path) (style : string)
    (w : world) (data : bytes) :
  files w !! tmp_id vp = Some data ->
  tmp_id vp <> tmp_id op ->
  let r := ffmpeg_render t (render_cmd vp sp op style) (files w) in
  let used := _ffmpeg_available t && is_ok (check_true (fst r)) in
  render t vp sp op style w
  = (Py.Ok used,
     World (<[tmp_id op := if used then snd r else data]> (files w))
           (next_tmp w)).
Proof.
  intros Hv Hne r used. subst used r. unfold render.
  destruct (_ffmpeg_available t) eqn:Hav; simpl.
  - unfold try_except, mbind, M_bind, bind, run_render, mret, M_ret, ret,
      shutil_copy.
    destruct (ffmpeg_render t _ (files w)) as [c produced] eqn:Hr. simpl.
    destruct c as [e | rc out]; simpl.
    + by rewrite Hv.
    + destruct (rc =? 0)%Z; simpl; [done|].
      rewrite lookup_insert_ne by congruence. rewrite Hv. simpl.
      by rewrite insert_insert_eq.
  - unfold mbind, M_bind, bind, mret, M_ret, ret, shutil_copy. by rewrite Hv.
Qed.




(** The whole handler, in one equation for each way it can end. *)
Lemma burn_world (t : tools) (file : UploadFile) (srt position color : string)
    (font_size : Z) (bg_opacity : Q) (w : world) :
  let n := next_tmp w in
  let op := Path (S (S n)) ".mp4" in
  burn_subtitles t file srt position color font_size bg_opacity w =
  if no_filename file then (Py.Raise no_file_provided, w) else
  match Style.force_style position color font_size bg_opacity with
  | Py.Raise e =>
      (Py.Raise e,
       World (<[S (S n) := []]> (<[S n := encode_utf8 srt]>
                (<[n := content file]> (files w))))
             (S (S (S n))))
  | Py.Ok style =>
      let used := _ffmpeg_available t
                  && is_ok (render_outcome t file srt style w) in
      (Py.Ok (Response op "video/mp4"
                (if used then "subtitled.mp4" else "video.mp4")),
       World (<[S (S n) := if used then render_output t file srt style w
                           else content file]>
                (delete (S n) (delete n (files w))))
             (S (S (S n))))
  end.
Proof.
  intros n op.
  destruct (no_filename file) eqn:Hname.
  { unfold burn_subtitles. by rewrite Hname. }
  set (vp := Path n (upload_suffix file)).
  set (sp := Path (S n) ".srt").
  pose proof (stage_eq file srt w) as Hstage.
  cbv zeta in Hstage. fold n vp sp op in Hstage.
  set (w1 := World _ _) in Hstage.
  assert (Hstage' : stage file srt w = (Py.Ok (vp, sp, op), w1))
    by exact Hstage.
  unfold burn_subtitles. rewrite Hname.
  unfold stage in Hstage.
  unfold mbind, M_bind, bind in *.
  destruct (_save_upload_to_temp file w) as [[p1|] wa]; [|discriminate Hstage].
  destruct (mkstemp ".srt" wa) as [[p2|] wb]; [|discriminate Hstage].
  destruct (write_file p2 (encode_utf8 srt) wb) as [[[]|] wc];
    [|discriminate Hstage].
  destruct (mkstemp ".mp4" wc) as [[p3|] wd]; [|discriminate Hstage].
  unfold mret, M_ret, ret in Hstage. injection Hstage as -> -> -> ->.
  unfold lift.
  destruct (Style.force_style position color font_size bg_opacity)
    as [style|e].
  2:{ f_equal. subst w1. f_equal. apply map_eq. intros k.
      destruct (decide (k = S (S n))) as [->|]; [by rewrite !lookup_insert_eq|].
      rewrite !(lookup_insert_ne _ (S (S n))) by done.
      destruct (decide (k = S n)) as [->|]; [by rewrite !lookup_insert_eq|].
      rewrite !(lookup_insert_ne _ (S n)) by done.
      destruct (decide (k = n)) as [->|]; [by rewrite !lookup_insert_eq|].
      by rewrite !(lookup_insert_ne _ n) by done. }
  assert (Hv : files w1 !! tmp_id vp = Some (content file)).
  { subst w1. simpl. rewrite !lookup_insert_ne by lia. apply lookup_insert_eq. }
  assert (Hs : files w1 !! tmp_id sp = Some (encode_utf8 srt)).
  { subst w1. simpl. rewrite lookup_insert_ne by lia. apply lookup_insert_eq. }
  rewrite (render_world t vp sp op style w1 (content file) Hv
             ltac:(simpl; lia)).
  unfold render_outcome, render_output. rewrite Hstage'.
  cbv zeta.
  set (used := _ffmpeg_available t && _).
  set (out := if used then _ else _).
  unfold try_except, os_remove. simpl files. simpl tmp_id.
  rewrite lookup_insert_ne by lia. simpl in Hv. rewrite Hv.
  simpl files.
  rewrite lookup_delete_ne by lia. rewrite lookup_insert_ne by lia.
  simpl in Hs. rewrite Hs. simpl.
  f_equal. f_equal. subst w1. simpl. apply map_eq. intros k.
  destruct (decide (k = S (S n))) as [->|].
  { rewrite !lookup_delete_ne by lia. by rewrite !lookup_insert_eq. }
  rewrite (lookup_insert_ne _ (S (S n)) k) by done.
  destruct (decide (k = S n)) as [->|]; [by rewrite !lookup_delete_eq|].
  rewrite !(lookup_delete_ne _ (S n)) by done.
  destruct (decide (k = n)) as [->|]; [by rewrite !lookup_delete_eq|].
  rewrite !(lookup_delete_ne _ n) by done.
  by rewrite !lookup_insert_ne by done.
Qed.






(** X13. When the probe and the render both succeed, the response is
    named [subtitled.mp4] and serves exactly the bytes the engine left
    in the output file. *)
Theorem burn_serves_render (t : tools) (file : UploadFile)
    (srt position color : string) (font_size : Z) (bg_opacity : Q)
    (style : string) (w : world) :
  no_filename file = false ->
  Style.force_style position color font_size bg_opacity = Py.Ok style ->
  _ffmpeg_available t = true ->
  is_ok (render_outcome t file srt style w) = true ->
  exists resp w',
    burn_subtitles t file srt position color font_size bg_opacity w
    = (Py.Ok resp, w')
    /\ resp_filename resp = "subtitled.mp4"
    /\ response_body w' resp = Some (render_output t file srt style w).
Proof.
  intros Hname Hs Hav Hr. rewrite burn_world, Hname, Hs. cbv zeta.
  rewrite Hav, Hr. simpl.
  eexists _, _. split; [reflexivity|]. split; [reflexivity|].
  unfold response_body. simpl. apply lookup_insert_eq.
Qed.

Lemma burn_serves_render_witness :
  no_filename sample_upload = false
  /\ Style.force_style "bottom" "#FFFFFF" 28 (4 # 10) = Py.Ok sample_style
  /\ _ffmpeg_available working_engine = true
  /\ is_ok (render_outcome working_engine sample_upload "1" sample_style
              empty_world) = true
  /\ exists resp w',
       burn_subtitles working_engine sample_upload "1" "bottom" "#FFFFFF" 28
         (4 # 10) empty_world = (Py.Ok resp, w')
       /\ response_body w' resp = Some [Byte.x2a; Byte.x2b].
Proof.
  split; [reflexivity|]. split; [reflexivity|].
  split; [reflexivity|]. split; [reflexivity|].
  destruct (burn_serves_render working_engine sample_upload "1" "bottom"
              "#FFFFFF" 28 (4 # 10) sample_style empty_world
              eq_refl eq_refl eq_refl eq_refl)
    as (resp & w' & Hb & _ & Hbody).
  exists resp, w'. split; [exact Hb|exact Hbody].
Defined.

End BurnEdges.

(** ** Saving an upload: the temporary file and its suffix *)

Section SavedUpload.
Import Sys Api.









Example save_upload_suffixes :
  upload_suffix (Upload (Some "holiday.final.MP4") []) = ".MP4"
  /\ upload_suffix (Upload (Some "a.b/clip") []) = ".bin"
  /\ upload_suffix (Upload (Some ".hidden") []) = ".bin"
  /\ upload_suffix (Upload None []) = ".bin".
Proof. repeat split; reflexivity. Qed.

End SavedUpload.

(** ** The transcription handler *)

Section TranscribeEdges.
Import Sys Api.
Local Open Scope Q_scope.

Variable float_of_stdout : string -> Py.outcome Q.





End TranscribeEdges.



(** ** The subtitle upload: what the text holds *)

Section UploadEdges.
Import Utf8.

Lemma decode_encoded_char (h : errors) (c : ascii) (rest : Sys.bytes) :
  decode_loop h (map Byte.to_N (Sys.utf8_of_ascii c ++ rest)%list)
  = emit (N_of_ascii c) (decode_loop h (map Byte.to_N rest)).
Proof. destruct c as [[] [] [] [] [] [] [] []]; reflexivity. Qed.

Lemma decode_encode_utf8 (h : errors) (s : string) :
  decode h (Sys.encode_utf8 s) = Py.Ok (code_points s).
Proof.
  unfold decode, code_points. induction s as [|c s IH]; [reflexivity|].
  simpl Sys.encode_utf8. rewrite decode_encoded_char, IH. reflexivity.
Qed.

(** X17. Text written out in UTF-8, as the burn handler writes the
    subtitle file, comes back unchanged when it is uploaded as a
    subtitle file: nothing is dropped from well-formed input. *)
Theorem upload_srt_roundtrip (name : ascii) (name' s : string) :
  Api.upload_srt (Sys.Upload (Some (String name name')) (Sys.encode_utf8 s))
  = Py.Ok (code_points s).
Proof. unfold Api.upload_srt. simpl. apply decode_encode_utf8. Qed.

Ltac to_props :=
  repeat match goal with
  | H : (_ || _) = false |- _ => apply orb_false_elim in H as [? ?]
  | H : (_ && _) = true |- _ => apply andb_prop in H as [? ?]
  | H : negb _ = false |- _ => apply negb_false_iff in H
  | H : negb _ = true |- _ => apply negb_true_iff in H
  | H : is_cont _ = true |- _ => unfold is_cont in H
  | H : is_cont _ = false |- _ => unfold is_cont in H
  | H : (_ && _) = false |- _ => apply andb_false_iff in H as [?|?]
  | H : (_ <? _)%N = true |- _ => apply N.ltb_lt in H
  | H : (_ <? _)%N = false |- _ => apply N.ltb_ge in H
  | H : (_ <=? _)%N = true |- _ => apply N.leb_le in H
  | H : (_ <=? _)%N = false |- _ => apply N.leb_gt in H
  | H : (_ =? _)%N = true |- _ => apply N.eqb_eq in H
  | H : (_ =? _)%N = false |- _ => apply N.eqb_neq in H
  end.

Lemma is_scalar_intro (cp : N) :
  (cp < 55296 \/ (57343 < cp /\ cp < 1114112))%N -> is_scalar cp = true.
Proof.
  intros H. unfold is_scalar.
  destruct (N.ltb_spec cp 55296); [reflexivity|].
  destruct H as [?|[? ?]]; [lia|].
  simpl. apply andb_true_intro. split; apply N.ltb_lt; done.
Qed.

Lemma ignore_scalar_bounded (n : nat) (bs : list N) :
  (length bs <= n)%nat ->
  Forall (fun b => (b < 256)%N) bs ->
  exists t, decode_loop Ignore bs = Py.Ok t
            /\ Forall (fun cp => is_scalar cp = true) t
            /\ (length t <= length bs)%nat.
Proof.
  revert bs. induction n as [|n IH]; intros bs Hlen Hb.
  { destruct bs; [|simpl in Hlen; lia]. exists []. by repeat split. }
  destruct bs as [|b0 r0]; [exists []; by repeat split|].
  simpl in Hlen. apply Forall_cons in Hb as [Hb0 Hr0].
  assert (skip : forall r, (length r <= length r0)%nat ->
            Forall (fun b => (b < 256)%N) r ->
            exists t, decode_loop Ignore r = Py.Ok t
                      /\ Forall (fun cp => is_scalar cp = true) t
                      /\ (length t <= length (b0 :: r0))%nat).
  { intros r Hr Hf. destruct (IH r ltac:(lia) Hf) as (t & E & F & L).
    exists t. split; [exact E|]. split; [exact F|]. simpl. lia. }
  assert (stop : exists t, @Py.Ok text [] = Py.Ok t
                      /\ Forall (fun cp => is_scalar cp = true) t
                      /\ (length t <= length (b0 :: r0))%nat).
  { exists []. split; [reflexivity|]. split; [constructor|simpl; lia]. }
  assert (step : forall cp r, (length r < length (b0 :: r0))%nat ->
            Forall (fun b => (b < 256)%N) r ->
            is_scalar cp = true ->
            exists t, emit cp (decode_loop Ignore r) = Py.Ok t
                      /\ Forall (fun cp => is_scalar cp = true) t
                      /\ (length t <= length (b0 :: r0))%nat).
  { intros cp r Hr Hf Hcp. simpl in Hr.
    destruct (IH r ltac:(lia) Hf) as (t & E & F & L).
    exists (cp :: t). rewrite E. split; [reflexivity|].
    split; [by constructor|]. simpl. lia. }
  cbn [decode_loop on_error].
  destruct (b0 <? 128)%N eqn:C1.
  { apply step; [simpl; lia|done|]. to_props. apply is_scalar_intro. lia. }
  destruct (b0 <? 194)%N eqn:C2; [by apply skip|].
  destruct (b0 <? 224)%N eqn:C3.
  { destruct r0 as [|b1 r1]; [exact stop|].
    apply Forall_cons in Hr0 as [Hb1 Hr1].
    destruct (is_cont b1) eqn:D1; [|apply skip; [done|by constructor]].
    apply step; [simpl; lia|done|]. to_props. apply is_scalar_intro. lia. }
  destruct (b0 <? 240)%N eqn:C4.
  { destruct r0 as [|b1 r1]; [exact stop|].
    apply Forall_cons in Hr0 as [Hb1 Hr1].
    match goal with |- context [if ?c then _ else _] => destruct c eqn:D1 end;
      [apply skip; [done|by constructor]|].
    destruct r1 as [|b2 r2]; [exact stop|].
    apply Forall_cons in Hr1 as [Hb2 Hr2].
    destruct (is_cont b2) eqn:D2;
      [|apply skip; [simpl; lia|by constructor]].
    apply step; [simpl; lia|done|]. to_props; apply is_scalar_intro; lia. }
  destruct (b0 <? 245)%N eqn:C5; [|by apply skip].
  destruct r0 as [|b1 r1]; [exact stop|].
  apply Forall_cons in Hr0 as [Hb1 Hr1].
  match goal with |- context [if ?c then _ else _] => destruct c eqn:D1 end;
    [apply skip; [done|by constructor]|].
  destruct r1 as [|b2 r2]; [exact stop|].
  apply Forall_cons in Hr1 as [Hb2 Hr2].
  destruct (is_cont b2) eqn:D2; cbn [negb];
    [|apply skip; [simpl; lia|by constructor]].
  destruct r2 as [|b3 r3]; [exact stop|].
  apply Forall_cons in Hr2 as [Hb3 Hr3].
  destruct (is_cont b3) eqn:D3;
    [|apply skip; [simpl; lia|by constructor]].
  apply step; [simpl; lia|done|]. to_props; apply is_scalar_intro; lia.
Qed.

Lemma bytes_bounded (data : Sys.bytes) :
  Forall (fun b => (b < 256)%N) (map Byte.to_N data).
Proof.
  induction data as [|b data IH]; simpl; constructor; [|exact IH].
  pose proof (Byte.to_N_bounded b). lia.
Qed.

(** X18. The text answered for an upload holds only Unicode scalar
    values (no surrogate, nothing above 10FFFF) whatever the bytes
    are, and never more characters than there were bytes. *)
Theorem upload_srt_scalars (file : Sys.UploadFile) :
  Sys.no_filename file = false ->
  exists text,
    Api.upload_srt file = Py.Ok text
    /\ Forall (fun cp => is_scalar cp = true) text
    /\ (length text <= length (Sys.content file))%nat.
Proof.
  intros Hname. unfold Api.upload_srt, decode. rewrite Hname.
  destruct (ignore_scalar_bounded _ (map Byte.to_N (Sys.content file))
              (le_n _) (bytes_bounded _)) as (t & E & F & L).
  exists t. split; [exact E|]. split; [exact F|].
  by rewrite length_map in L.
Qed.

Lemma upload_srt_scalars_witness :
  Sys.no_filename sample_upload = false
  /\ exists text,
       Api.upload_srt sample_upload = Py.Ok text
       /\ (length text <= 4)%nat.
Proof.
  split; [reflexivity|].
  destruct (upload_srt_scalars sample_upload eq_refl) as (text & E & _ & L).
  exists text. split; [exact E|exact L].
Defined.

End UploadEdges.
